(** * Tuya BLE lock: state reconciliation and keepalive

    A shallow embedding of [custom_components/tuya_local_ble/lock.py]:
    the [TuyaBLELock] entity, its command path ([_set_lock_state]), its
    report path ([update_device_state], [_handle_coordinator_update]),
    the derived [LockEntity] properties, the keepalive set-up done by
    [__init__] and the loop of [send_nop_request], the configuration
    lookup [get_mapping_by_device] and the entity set-up
    [async_setup_entry].

    Conventions.
    - Python's [Optional[bool]] is [option bool]; for the lock state
      [Some true] is locked, [Some false] is unlocked, [None] is unknown.
    - A [datetime] is an integer count of microseconds (the resolution of
      Python's [datetime]); [datetime.now()] is an input of the function
      that reads the clock.
    - The datapoint collection [device.datapoints] is a finite map from
      datapoint id to datapoint.
    - Effects that leave the entity (state publication, calls on the
      datapoint collection, scheduled datapoint writes, the timer thread)
      are recorded, in program order, in the trace of the world the
      computation is threaded through. *)

From Stdlib Require Import ZArith Bool String List.
From stdpp Require Import base option strings gmap.
Import ListNotations.

Local Open Scope Z_scope.

(** ** Python values and the datapoint collection *)

Module Py.

(** The values a datapoint can hold, with Python's truth test. *)
Inductive value : Type :=
| VBool (b : bool)
| VInt (n : Z)
| VStr (s : string)
| VBytes (bs : list Byte.byte).

Definition truthy (v : value) : bool :=
  match v with
  | VBool b => b
  | VInt n => negb (n =? 0)
  | VStr s => negb (String.eqb s EmptyString)
  | VBytes bs => match bs with [] => false | _ :: _ => true end
  end.

(** [datetime] and [timedelta], both in microseconds. *)
Definition datetime : Type := Z.
Definition timedelta (seconds : Z) : Z := seconds * 1000000.

End Py.

(** Modelled from the spec: the enumeration [TuyaBLEDataPointType] of
    module [tuya_ble], which is not part of the sources at hand.  The lock
    only ever names [DT_BOOL]; every other member is kept under its
    numeric code. *)
Inductive TuyaBLEDataPointType : Type :=
| DT_BOOL
| DT_OTHER (code : Z).

(** Modelled from the spec: a datapoint of module [tuya_ble], "a single
    addressed value with a declared type and a current value tracked by
    the store". *)
Record TuyaBLEDataPoint : Type := mkDataPoint {
  dp_type : TuyaBLEDataPointType;
  dp_value : Py.value
}.

(** [device.datapoints]. *)
Abbreviation datapoints := (gmap Z TuyaBLEDataPoint).

(** Modelled from the spec: [datapoints[id]] of module [tuya_ble], the
    store's [get(id) -> value | absent].  An absent datapoint is [None],
    which is falsy; a datapoint object is truthy. *)
Definition dp_getitem (dps : datapoints) (id : Z) : option TuyaBLEDataPoint :=
  dps !! id.

(** Modelled from the spec: [datapoints.get_or_create(id, type, value)] of
    module [tuya_ble], "idempotent; creates with default if absent".  The
    handle it returns is the datapoint's id. *)
Definition get_or_create (id : Z) (ty : TuyaBLEDataPointType) (default : Py.value)
    (dps : datapoints) : Z * datapoints :=
  match dps !! id with
  | Some _ => (id, dps)
  | None => (id, <[id := mkDataPoint ty default]> dps)
  end.

(** ** Configuration *)

Record TuyaBLELockMapping : Type := mkMapping {
  dp_id : Z;
  dp_id_lock : Z;
  dp_id_unlock : Z;
  dp_id_nop : Z;
  keep_connect_timer : Z;
  force_add : bool;
  keep_connect : bool
}.

(** The one entry of the table [mapping]: category [jtmspro], product
    [rlyxv7pe] (Gimdow Smart Lock). *)
Definition gimdow : TuyaBLELockMapping :=
  {| dp_id := 47;
     dp_id_lock := 46;
     dp_id_unlock := 6;
     dp_id_nop := 52;
     keep_connect_timer := 60;
     force_add := true;
     keep_connect := true |}.

(** ** The entity *)

Record TuyaBLELock : Type := mkLock {
  _mapping : TuyaBLELockMapping;
  _current_state : option bool;
  _target_state : option bool;
  _commanded : bool;
  _commanded_timer : option Py.datetime;
  _datapoint_nop : option Z;
  _isjammed : bool;
  _attr_is_locking : bool;
  _attr_is_unlocking : bool;
  _attr_is_locked : option bool;
  _attr_is_jammed : bool
}.

(** Python's [x is True] and [x is False] on an [Optional[bool]]. *)
Definition is_True (x : option bool) : bool :=
  match x with Some true => true | _ => false end.
Definition is_False (x : option bool) : bool :=
  match x with Some false => true | _ => false end.

(** The [LockEntity] properties. *)
Definition is_locked (self : TuyaBLELock) : option bool :=
  _current_state self.

Definition is_locking (self : TuyaBLELock) : bool :=
  is_False (_current_state self) && is_True (_target_state self) && _commanded self.

Definition is_unlocking (self : TuyaBLELock) : bool :=
  is_True (_current_state self) && is_False (_target_state self) && _commanded self.

Definition is_jammed (self : TuyaBLELock) : bool :=
  _isjammed self.

(** [_attr_changed_by], which is copied from the host's base class and
    read by nothing here, is left out. *)
Definition _update_attrs (self : TuyaBLELock) : TuyaBLELock :=
  {| _mapping := _mapping self;
     _current_state := _current_state self;
     _target_state := _target_state self;
     _commanded := _commanded self;
     _commanded_timer := _commanded_timer self;
     _datapoint_nop := _datapoint_nop self;
     _isjammed := _isjammed self;
     _attr_is_locking := is_locking self;
     _attr_is_unlocking := is_unlocking self;
     _attr_is_locked := is_locked self;
     _attr_is_jammed := is_jammed self |}.

(** Field assignments [self.f = v]. *)
Definition set_current_state (v : option bool) (self : TuyaBLELock) : TuyaBLELock :=
  mkLock (_mapping self) v (_target_state self) (_commanded self)
    (_commanded_timer self) (_datapoint_nop self) (_isjammed self)
    (_attr_is_locking self) (_attr_is_unlocking self) (_attr_is_locked self)
    (_attr_is_jammed self).

Definition set_target_state (v : option bool) (self : TuyaBLELock) : TuyaBLELock :=
  mkLock (_mapping self) (_current_state self) v (_commanded self)
    (_commanded_timer self) (_datapoint_nop self) (_isjammed self)
    (_attr_is_locking self) (_attr_is_unlocking self) (_attr_is_locked self)
    (_attr_is_jammed self).

Definition set_commanded (v : bool) (self : TuyaBLELock) : TuyaBLELock :=
  mkLock (_mapping self) (_current_state self) (_target_state self) v
    (_commanded_timer self) (_datapoint_nop self) (_isjammed self)
    (_attr_is_locking self) (_attr_is_unlocking self) (_attr_is_locked self)
    (_attr_is_jammed self).

Definition set_commanded_timer (v : option Py.datetime) (self : TuyaBLELock) : TuyaBLELock :=
  mkLock (_mapping self) (_current_state self) (_target_state self) (_commanded self)
    v (_datapoint_nop self) (_isjammed self)
    (_attr_is_locking self) (_attr_is_unlocking self) (_attr_is_locked self)
    (_attr_is_jammed self).

Definition set_datapoint_nop (v : option Z) (self : TuyaBLELock) : TuyaBLELock :=
  mkLock (_mapping self) (_current_state self) (_target_state self) (_commanded self)
    (_commanded_timer self) v (_isjammed self)
    (_attr_is_locking self) (_attr_is_unlocking self) (_attr_is_locked self)
    (_attr_is_jammed self).

Definition set_isjammed (v : bool) (self : TuyaBLELock) : TuyaBLELock :=
  mkLock (_mapping self) (_current_state self) (_target_state self) (_commanded self)
    (_commanded_timer self) (_datapoint_nop self) v
    (_attr_is_locking self) (_attr_is_unlocking self) (_attr_is_locked self)
    (_attr_is_jammed self).

(** ** Effects *)

(** What [async_write_ha_state] hands to the host: the four properties as
    they read at the time of the call. *)
Record ha_state : Type := mkHaState {
  st_is_locked : option bool;
  st_is_locking : bool;
  st_is_unlocking : bool;
  st_is_jammed : bool
}.

Definition snapshot (self : TuyaBLELock) : ha_state :=
  {| st_is_locked := is_locked self;
     st_is_locking := is_locking self;
     st_is_unlocking := is_unlocking self;
     st_is_jammed := is_jammed self |}.

Inductive event : Type :=
| EvWriteHaState (st : ha_state)
    (* self.async_write_ha_state() *)
| EvGetOrCreate (id : Z) (ty : TuyaBLEDataPointType) (default : Py.value)
    (* device.datapoints.get_or_create(id, ty, default) *)
| EvSetValue (handle : Z) (v : Py.value)
    (* hass.create_task(datapoint.set_value(v)) *)
| EvTimerStart (interval : Z).
    (* Timer(interval, self.send_nop_request).start() *)

(** The entity's surroundings: the datapoint collection it shares with the
    device, and the effects issued so far, oldest first. *)
Record World : Type := mkWorld {
  w_dps : datapoints;
  w_trace : list event
}.

Module Eff.

Definition M (A : Type) : Type := World -> A * World.

Definition ret {A} (a : A) : M A := fun w => (a, w).

Definition bind {A B} (m : M A) (k : A -> M B) : M B :=
  fun w => let (a, w') := m w in k a w'.

Definition emit (e : event) : M unit :=
  fun w => (tt, mkWorld (w_dps w) (w_trace w ++ [e])).

Definition read_datapoints : M datapoints :=
  fun w => (w_dps w, w).

Definition datapoints_get_or_create (id : Z) (ty : TuyaBLEDataPointType)
    (default : Py.value) : M Z :=
  fun w =>
    let (handle, dps') := get_or_create id ty default (w_dps w) in
    (handle, mkWorld dps' (w_trace w ++ [EvGetOrCreate id ty default])).

End Eff.

#[global] Instance eff_ret : MRet Eff.M := @Eff.ret.
#[global] Instance eff_bind : MBind Eff.M := fun A B k m => Eff.bind m k.

Definition async_write_ha_state (self : TuyaBLELock) : Eff.M unit :=
  Eff.emit (EvWriteHaState (snapshot self)).

(** ** Construction *)

Definition __init__ (mapping : TuyaBLELockMapping) : Eff.M TuyaBLELock :=
  let self :=
    {| _mapping := mapping;
       _current_state := None;
       _target_state := None;
       _commanded := false;
       _commanded_timer := None;
       _datapoint_nop := None;
       _isjammed := false;
       _attr_is_locking := false;
       _attr_is_unlocking := false;
       _attr_is_locked := None;
       _attr_is_jammed := false |} in
  let self := _update_attrs self in
  if keep_connect mapping then
    Eff.emit (EvTimerStart (keep_connect_timer (_mapping self)));;
    handle ← Eff.datapoints_get_or_create
               (dp_id_nop (_mapping self)) DT_BOOL (Py.VBool false);
    mret (set_datapoint_nop (Some handle) self)
  else
    mret self.

(** One turn of the loop of [send_nop_request], up to its [time.sleep]. *)
Definition send_nop_request_turn (self : TuyaBLELock) : Eff.M unit :=
  match _datapoint_nop self with
  | Some handle => Eff.emit (EvSetValue handle (Py.VBool true))
  | None => mret tt
  end.

(** ** Commands *)

Definition _set_lock_state (want_locked : bool) (now : Py.datetime)
    (self : TuyaBLELock) : Eff.M TuyaBLELock :=
  let self := set_target_state (Some want_locked) self in
  let self := _update_attrs self in
  async_write_ha_state self;;
  let dp_id := if want_locked then dp_id_lock (_mapping self)
               else dp_id_unlock (_mapping self) in
  datapoint ← Eff.datapoints_get_or_create dp_id DT_BOOL (Py.VBool false);
  Eff.emit (EvSetValue datapoint (Py.VBool true));;
  let self := set_commanded true self in
  let self := set_commanded_timer (Some now) self in
  mret self.

Definition async_lock := _set_lock_state true.
Definition async_unlock := _set_lock_state false.

(** ** Reports *)

(** [a != b] on two [Optional[bool]]. *)
Definition opt_bool_ne (a b : option bool) : bool :=
  match a, b with
  | Some x, Some y => xorb x y
  | None, None => false
  | _, _ => true
  end.

Definition is_not_None {A} (x : option A) : bool :=
  match x with Some _ => true | None => false end.

Definition update_device_state (now : Py.datetime) (dps : datapoints)
    (self : TuyaBLELock) : TuyaBLELock :=
  match dp_getitem dps (dp_id (_mapping self)) with
  | Some datapoint =>
      let self :=
        set_current_state
          (Some (if Py.truthy (dp_value datapoint) then false else true)) self in
      if _commanded self then
        if is_not_None (_target_state self)
           && opt_bool_ne (_current_state self) (_target_state self)
        then
          if match _commanded_timer self with
             | Some issued => now >? issued + Py.timedelta 12
             | None => false
             end
          then set_commanded false (set_isjammed true self)
          else self
        else set_isjammed false (set_commanded false self)
      else self
  | None => self
  end.

Definition _handle_coordinator_update (now : Py.datetime)
    (self : TuyaBLELock) : Eff.M TuyaBLELock :=
  dps ← Eff.read_datapoints;
  let self := update_device_state now dps self in
  let self := _update_attrs self in
  async_write_ha_state self;;
  mret self.

(** ** Vocabulary of the specification *)

(** [currentState] and [targetState] of the specification, as values of
    [_current_state] and [_target_state]. *)
Abbreviation Locked := (Some true) (only parsing).
Abbreviation Unlocked := (Some false) (only parsing).
Abbreviation Unknown := (@None bool) (only parsing).
Abbreviation Unset := (@None bool) (only parsing).

(** The physical state a status datapoint stands for: truthy is unlocked. *)
Definition reported_state (datapoint : TuyaBLEDataPoint) : option bool :=
  Some (negb (Py.truthy (dp_value datapoint))).

(** The entity once a pass has recorded what [datapoint] reports. *)
Definition seen (datapoint : TuyaBLEDataPoint) (self : TuyaBLELock) : TuyaBLELock :=
  set_current_state (reported_state datapoint) self.

(** The jam deadline of a command issued at [issued] has passed at [now]. *)
Definition timed_out (issued now : Py.datetime) : Prop :=
  now > issued + Py.timedelta 12.

(** The two entry points, as calls an outside party can make. *)
Inductive call : Type :=
| requestLock (want_locked : bool) (now : Py.datetime)
| onStatusReport (now : Py.datetime).

Definition do_call (c : call) (self : TuyaBLELock) : Eff.M TuyaBLELock :=
  match c with
  | requestLock want_locked now => _set_lock_state want_locked now self
  | onStatusReport now => _handle_coordinator_update now self
  end.

(** States an entity can be in: constructed over any mapping, then driven
    by any calls; between calls the device may have put anything into the
    datapoint collection, so each call meets an arbitrary world. *)
Inductive reachable : TuyaBLELock -> Prop :=
| reach_init (mapping : TuyaBLELockMapping) (w : World) :
    reachable (fst (__init__ mapping w))
| reach_call (self : TuyaBLELock) (c : call) (w : World) :
    reachable self ->
    reachable (fst (do_call c self w)).

(** The events a computation adds to the trace of the world it starts in. *)
Definition issued {A} (m : Eff.M A) (w : World) : list event :=
  drop (length (w_trace w)) (w_trace (snd (m w))).

(** [e1] is issued before [e2] in a trace. *)
Definition precedes (e1 e2 : event) (tr : list event) : Prop :=
  exists pre mid post, tr = pre ++ e1 :: mid ++ e2 :: post.

(** ** Scenarios on the Gimdow lock *)

Module Scenario.

Definition seconds (n : Z) : Py.datetime := Py.timedelta n.

(** A datapoint collection in which the status datapoint 47 holds [raw]. *)
Definition status (raw : bool) : World :=
  mkWorld {[ 47 := mkDataPoint DT_BOOL (Py.VBool raw) ]} [].

Definition nothing : World := mkWorld ∅ [].

Definition fresh : TuyaBLELock := fst (__init__ gimdow nothing).

(** First report: the lock is unlocked. *)
Definition unlocked : TuyaBLELock :=
  fst (do_call (onStatusReport (seconds 0)) fresh (status true)).

(** A lock command at 1 s. *)
Definition locking : TuyaBLELock :=
  fst (do_call (requestLock true (seconds 1)) unlocked (status true)).

(** Still unlocked at 14 s: the command has timed out. *)
Definition jammed : TuyaBLELock :=
  fst (do_call (onStatusReport (seconds 14)) locking (status true)).

(** The lock command is repeated at 20 s while the jam stands. *)
Definition retried : TuyaBLELock :=
  fst (do_call (requestLock true (seconds 20)) jammed (status true)).

End Scenario.

(** ** Statements of the specification that the code is tested against *)

Module AsStated.

(** "A later report matching the target clears the jam." *)
Definition matching_report_clears_jam
    (now : Py.datetime) (dps : datapoints) (self : TuyaBLELock) : Prop :=
  _isjammed self = true ->
  _commanded self = false ->
  forall datapoint,
    dps !! dp_id (_mapping self) = Some datapoint ->
    reported_state datapoint = _target_state self ->
    _isjammed (update_device_state now dps self) = false.

(** "A mismatched report on a pending command sets [jammed] and clears
    [commandPending] exactly when the deadline has passed; before it,
    [jammed] stays false and [commandPending] stays true." *)
Definition jam_exactly_after_deadline
    (now : Py.datetime) (dps : datapoints) (self : TuyaBLELock) : Prop :=
  forall datapoint target issued_at,
    _commanded self = true ->
    _target_state self = Some target ->
    _commanded_timer self = Some issued_at ->
    dps !! dp_id (_mapping self) = Some datapoint ->
    reported_state datapoint <> Some target ->
    let self' := update_device_state now dps self in
    ((_isjammed self' = true /\ _commanded self' = false)
       <-> timed_out issued_at now)
    /\ (~ timed_out issued_at now ->
        _isjammed self' = false /\ _commanded self' = true).

(** "The properties are published before the write is sent, and the
    published state already shows locking, respectively unlocking." *)
Definition transition_published_before_write
    (want_locked : bool) (now : Py.datetime) (self : TuyaBLELock)
    (w : World) : Prop :=
  exists st handle,
    precedes (EvWriteHaState st) (EvSetValue handle (Py.VBool true))
      (issued (_set_lock_state want_locked now self) w)
    /\ (want_locked = true -> _current_state self = Unlocked ->
        st_is_locking st = true)
    /\ (want_locked = false -> _current_state self = Locked ->
        st_is_unlocking st = true).

(** "Initialization first ensures the keepalive datapoint exists, and
    only then starts the timer." *)
Definition keepalive_datapoint_before_timer
    (mapping : TuyaBLELockMapping) (w : World) : Prop :=
  keep_connect mapping = true ->
  precedes
    (EvGetOrCreate (dp_id_nop mapping) DT_BOOL (Py.VBool false))
    (EvTimerStart (keep_connect_timer mapping))
    (issued (__init__ mapping) w).

End AsStated.

(** ** Configuration lookup and set-up *)

(** [TuyaBLELockMapping] together with its field [dp_type], which only
    [async_setup_entry] reads ([description] and [is_available] are read
    by the host and by [available]). *)
Record TuyaBLELockSetup : Type := mkSetup {
  su_mapping : TuyaBLELockMapping;
  su_dp_type : option TuyaBLEDataPointType
}.

Record TuyaBLECategoryLockMapping : Type := mkCategory {
  products : option (gmap string (list TuyaBLELockSetup));
  mapping : option (list TuyaBLELockSetup)
}.

(** The module-level table [mapping]. *)
Definition mapping_table : gmap string TuyaBLECategoryLockMapping :=
  {[ "jtmspro" :=
       {| products := Some {[ "rlyxv7pe" := [ mkSetup gimdow None ] ]};
          mapping := None |} ]}.

(** Modelled from the spec: the two attributes of [TuyaBLEDevice] (module
    [tuya_ble]) that the lookup reads, "a device's category and product
    identifiers". *)
Record TuyaBLEDevice : Type := mkDevice {
  category : string;
  product_id : string
}.

(** [get_mapping_by_device], over the table it consults. *)
Definition get_mapping_by_device
    (table : gmap string TuyaBLECategoryLockMapping) (device : TuyaBLEDevice)
    : list TuyaBLELockSetup :=
  match table !! category device with
  | Some {| products := Some prods; mapping := category_mapping |} =>
      match prods !! product_id device with
      | Some product_mapping => product_mapping
      | None =>
          match category_mapping with
          | Some m => m
          | None => []
          end
      end
  | _ => []
  end.

(** The loop of [async_setup_entry]: [entities] is the list built so far.
    [has_id] is [device.datapoints.has_id] of module [tuya_ble]; it is
    asked on the collection as it is when the mapping's turn comes. *)
Fixpoint setup_entities
    (has_id : datapoints -> Z -> option TuyaBLEDataPointType -> bool)
    (mappings : list TuyaBLELockSetup) (entities : list TuyaBLELock)
    : Eff.M (list TuyaBLELock) :=
  match mappings with
  | [] => mret entities
  | m :: rest =>
      dps ← Eff.read_datapoints;
      if force_add (su_mapping m) || has_id dps (dp_id (su_mapping m)) (su_dp_type m)
      then
        entity ← __init__ (su_mapping m);
        setup_entities has_id rest (entities ++ [entity])
      else
        setup_entities has_id rest entities
  end.

(** [async_setup_entry]; the result is the list handed to
    [async_add_entities]. *)
Definition async_setup_entry
    (has_id : datapoints -> Z -> option TuyaBLEDataPointType -> bool)
    (table : gmap string TuyaBLECategoryLockMapping) (device : TuyaBLEDevice)
    : Eff.M (list TuyaBLELock) :=
  let mappings := get_mapping_by_device table device in
  setup_entities has_id mappings [].

(** ** Runs *)

(** The first [turns] turns of the endless loop of [send_nop_request], on
    an entity whose keepalive handle does not change meanwhile. *)
Fixpoint send_nop_request_turns (turns : nat) (self : TuyaBLELock) : Eff.M unit :=
  match turns with
  | O => mret tt
  | S n => send_nop_request_turn self;; send_nop_request_turns n self
  end.

(** A sequence of calls on one entity. *)
Fixpoint run (calls : list call) (self : TuyaBLELock) : Eff.M TuyaBLELock :=
  match calls with
  | [] => mret self
  | c :: rest => self' ← do_call c self; run rest self'
  end.

(** A computation only ever adds to the trace. *)
Definition appends {A} (m : Eff.M A) : Prop :=
  forall w, w_trace (snd (m w)) = w_trace w ++ issued m w.

Definition is_write (e : event) : bool :=
  match e with EvSetValue _ _ => true | _ => false end.

Definition is_publication (e : event) : bool :=
  match e with EvWriteHaState _ => true | _ => false end.

Definition is_timer_start (e : event) : bool :=
  match e with EvTimerStart _ => true | _ => false end.

Definition is_request (c : call) : bool :=
  match c with requestLock _ _ => true | onStatusReport _ => false end.

(** The cached attributes agree with the properties they were read from. *)
Definition attrs_in_sync (self : TuyaBLELock) : Prop :=
  _attr_is_locked self = is_locked self
  /\ _attr_is_locking self = is_locking self
  /\ _attr_is_unlocking self = is_unlocking self
  /\ _attr_is_jammed self = is_jammed self.

(** * Properties *)

(** ** Helper lemmas *)

Lemma timed_out_gtb (issued_at now : Py.datetime) :
  (now >? issued_at + Py.timedelta 12) = true <-> timed_out issued_at now.
Proof. unfold timed_out. rewrite Z.gtb_ltb, Z.ltb_lt. lia. Qed.

Lemma not_timed_out_gtb (issued_at now : Py.datetime) :
  (now >? issued_at + Py.timedelta 12) = false <-> ~ timed_out issued_at now.
Proof.
  rewrite <- timed_out_gtb.
  destruct (now >? issued_at + Py.timedelta 12); split; congruence.
Qed.

Lemma opt_bool_ne_false (a b : option bool) :
  opt_bool_ne a b = false <-> a = b.
Proof. destruct a as [[]|], b as [[]|]; simpl; split; congruence. Qed.

Lemma opt_bool_ne_true (a b : option bool) :
  opt_bool_ne a b = true <-> a <> b.
Proof. destruct a as [[]|], b as [[]|]; simpl; split; congruence. Qed.

Lemma update_attrs_fields (self : TuyaBLELock) :
  _current_state (_update_attrs self) = _current_state self
  /\ _target_state (_update_attrs self) = _target_state self
  /\ _commanded (_update_attrs self) = _commanded self
  /\ _commanded_timer (_update_attrs self) = _commanded_timer self
  /\ _isjammed (_update_attrs self) = _isjammed self.
Proof. repeat split. Qed.

Lemma handle_coordinator_update_fst now self w :
  fst (_handle_coordinator_update now self w)
  = _update_attrs (update_device_state now (w_dps w) self).
Proof. reflexivity. Qed.

Lemma set_lock_state_fst want_locked now self w :
  fst (_set_lock_state want_locked now self w)
  = set_commanded_timer (Some now)
      (set_commanded true
         (_update_attrs (set_target_state (Some want_locked) self))).
Proof.
  unfold _set_lock_state, mbind, eff_bind, Eff.bind, async_write_ha_state,
    Eff.emit, Eff.datapoints_get_or_create, get_or_create; simpl.
  destruct want_locked; simpl;
    match goal with |- context [?m !! ?k] => destruct (m !! k) end;
    reflexivity.
Qed.

Lemma update_device_state_absent now (dps : datapoints) self :
  dps !! dp_id (_mapping self) = None ->
  update_device_state now dps self = self.
Proof. intros Habs. unfold update_device_state, dp_getitem. now rewrite Habs. Qed.

(** What a pass does when the status datapoint is there, by cases on the
    state the pass starts in. *)
Section Present.

Variables (now : Py.datetime) (dps : datapoints) (self : TuyaBLELock).
Variable datapoint : TuyaBLEDataPoint.
Hypothesis Hpresent : dps !! dp_id (_mapping self) = Some datapoint.

Lemma present_idle :
  _commanded self = false ->
  update_device_state now dps self = seen datapoint self.
Proof using Hpresent.
  intros Hc. unfold update_device_state, dp_getitem. rewrite Hpresent.
  unfold seen, reported_state.
  destruct (Py.truthy (dp_value datapoint)); simpl; now rewrite Hc.
Qed.

Lemma present_satisfied :
  _commanded self = true ->
  _target_state self = None \/ _target_state self = reported_state datapoint ->
  update_device_state now dps self
  = set_isjammed false (set_commanded false (seen datapoint self)).
Proof using Hpresent.
  intros Hc Ht. unfold update_device_state, dp_getitem. rewrite Hpresent.
  unfold seen, reported_state in *.
  destruct (Py.truthy (dp_value datapoint)); simpl; rewrite Hc;
    destruct Ht as [-> | ->]; reflexivity.
Qed.

Lemma present_waiting target :
  _commanded self = true ->
  _target_state self = Some target ->
  reported_state datapoint <> Some target ->
  update_device_state now dps self
  = if match _commanded_timer self with
       | Some issued_at => now >? issued_at + Py.timedelta 12
       | None => false
       end
    then set_commanded false (set_isjammed true (seen datapoint self))
    else seen datapoint self.
Proof using Hpresent.
  intros Hc Ht Hne. unfold update_device_state, dp_getitem. rewrite Hpresent.
  unfold seen, reported_state in *.
  destruct (Py.truthy (dp_value datapoint)), target; simpl in *;
    rewrite Hc, Ht; simpl; congruence.
Qed.

End Present.

Lemma present_current_state now (dps : datapoints) self datapoint :
  dps !! dp_id (_mapping self) = Some datapoint ->
  _current_state (update_device_state now dps self) = reported_state datapoint.
Proof.
  intros Hpresent. unfold update_device_state, dp_getitem. rewrite Hpresent.
  unfold reported_state.
  destruct (Py.truthy (dp_value datapoint)); simpl;
    repeat match goal with
           | |- context [if ?c then _ else _] => destruct c; simpl
           end; reflexivity.
Qed.

(** A pass never touches the target, the time of issue, the mapping or the
    keepalive handle. *)
Lemma update_device_state_frame now (dps : datapoints) self :
  let self' := update_device_state now dps self in
  _target_state self' = _target_state self
  /\ _commanded_timer self' = _commanded_timer self
  /\ _mapping self' = _mapping self
  /\ _datapoint_nop self' = _datapoint_nop self.
Proof.
  unfold update_device_state, dp_getitem.
  destruct (dps !! dp_id (_mapping self)) as [datapoint|]; simpl; [|tauto].
  repeat match goal with
         | |- context [if ?c then _ else _] => destruct c; simpl
         end; tauto.
Qed.

(** With no command pending, a pass is at most an assignment to the
    current state. *)
Lemma idle_pass now (dps : datapoints) self :
  _commanded self = false ->
  update_device_state now dps self
  = set_current_state (_current_state (update_device_state now dps self)) self.
Proof.
  intros Hc.
  destruct (dps !! dp_id (_mapping self)) as [datapoint|] eqn:Hlook.
  - now rewrite (present_idle now dps self datapoint Hlook Hc).
  - rewrite (update_device_state_absent now dps self Hlook).
    now destruct self.
Qed.

Lemma idle_pass_isjammed now (dps : datapoints) self :
  _commanded self = false ->
  _isjammed (update_device_state now dps self) = _isjammed self.
Proof. intros Hc. now rewrite (idle_pass now dps self Hc). Qed.

(** ** Reconciliation *)

(** C3.  Whenever a pass finds a value stored for the status datapoint,
    a raw [true] makes the current state unlocked and a raw [false] makes
    it locked. *)
Theorem C3_report_polarity now (dps : datapoints) self datapoint (raw : bool) :
  dps !! dp_id (_mapping self) = Some datapoint ->
  dp_value datapoint = Py.VBool raw ->
  _current_state (update_device_state now dps self)
  = if raw then Unlocked else Locked.
Proof.
  intros Hpresent Hraw.
  rewrite (present_current_state _ _ _ _ Hpresent).
  unfold reported_state. rewrite Hraw. now destruct raw.
Qed.

Lemma C3_report_polarity_witness :
  let dps : datapoints := {[ 47 := mkDataPoint DT_BOOL (Py.VBool true) ]} in
  dps !! dp_id (_mapping Scenario.fresh) = Some (mkDataPoint DT_BOOL (Py.VBool true))
  /\ _current_state (update_device_state 0 dps Scenario.fresh) = Unlocked.
Proof.
  intros dps. split; [reflexivity|].
  exact (C3_report_polarity 0 dps Scenario.fresh
           (mkDataPoint DT_BOOL (Py.VBool true)) true eq_refl eq_refl).
Defined.

(** C4.  With a command pending, a report that matches the target, or any
    report when no target is set, ends the command: the pending flag and
    the jam flag are both false afterwards. *)
Theorem C4_command_satisfied now (dps : datapoints) self datapoint :
  _commanded self = true ->
  dps !! dp_id (_mapping self) = Some datapoint ->
  _target_state self = Unset \/ _target_state self = reported_state datapoint ->
  _commanded (update_device_state now dps self) = false
  /\ _isjammed (update_device_state now dps self) = false.
Proof.
  intros Hc Hpresent Ht.
  rewrite (present_satisfied now dps self datapoint Hpresent Hc Ht).
  split; reflexivity.
Qed.

Lemma C4_command_satisfied_witness :
  let dps : datapoints := {[ 47 := mkDataPoint DT_BOOL (Py.VBool false) ]} in
  _commanded Scenario.retried = true
  /\ _isjammed Scenario.retried = true
  /\ _commanded (update_device_state (Scenario.seconds 21) dps Scenario.retried) = false
  /\ _isjammed (update_device_state (Scenario.seconds 21) dps Scenario.retried) = false.
Proof.
  intros dps. split; [reflexivity|]. split; [reflexivity|].
  exact (C4_command_satisfied (Scenario.seconds 21) dps Scenario.retried
           (mkDataPoint DT_BOOL (Py.VBool false))
           eq_refl eq_refl (or_intror eq_refl)).
Defined.

(** C6.  With no command pending, a pass changes nothing but the current
    state: the jam flag, the pending flag, the target and the time of
    issue are as before, whatever the time of the pass; in particular the
    jam flag is not raised. *)
Theorem C6_unsolicited_report_frame now (dps : datapoints) self :
  _commanded self = false ->
  let self' := update_device_state now dps self in
  self' = set_current_state (_current_state self') self
  /\ _isjammed self' = _isjammed self
  /\ _commanded self' = false
  /\ _target_state self' = _target_state self
  /\ _commanded_timer self' = _commanded_timer self
  /\ (_isjammed self = false -> _isjammed self' = false).
Proof.
  intros Hc self'. subst self'.
  destruct (dps !! dp_id (_mapping self)) as [datapoint|] eqn:Hlook.
  - rewrite (present_idle now dps self datapoint Hlook Hc).
    simpl. repeat split; auto.
  - rewrite (update_device_state_absent now dps self Hlook).
    destruct self; simpl in *. repeat split; auto.
Qed.

Lemma C6_unsolicited_report_frame_witness :
  let dps : datapoints := {[ 47 := mkDataPoint DT_BOOL (Py.VBool false) ]} in
  let self' := update_device_state (Scenario.seconds 3600) dps Scenario.unlocked in
  _commanded Scenario.unlocked = false
  /\ _current_state self' = Locked
  /\ _isjammed self' = false
  /\ _commanded self' = false.
Proof.
  intros dps self'.
  pose proof (C6_unsolicited_report_frame (Scenario.seconds 3600) dps
                Scenario.unlocked eq_refl) as (_ & Hj & Hc & _).
  split; [reflexivity|]. split; [reflexivity|]. split; [exact Hj | exact Hc].
Defined.

(** C10.  When nothing is stored under the status datapoint id, a pass
    returns the entity exactly as it was (the model has no failing path),
    so the current state, the target, the pending flag, the time of issue
    and the jam flag are unchanged; the same five fields are unchanged by
    the whole coordinator callback. *)
Theorem C10_absent_datapoint_noop now (w : World) self :
  w_dps w !! dp_id (_mapping self) = None ->
  update_device_state now (w_dps w) self = self
  /\ let self' := fst (_handle_coordinator_update now self w) in
     _current_state self' = _current_state self
     /\ _target_state self' = _target_state self
     /\ _commanded self' = _commanded self
     /\ _commanded_timer self' = _commanded_timer self
     /\ _isjammed self' = _isjammed self.
Proof.
  intros Habs. split.
  - now apply update_device_state_absent.
  - rewrite handle_coordinator_update_fst.
    rewrite (update_device_state_absent now (w_dps w) self Habs).
    apply update_attrs_fields.
Qed.

Lemma C10_absent_datapoint_noop_witness :
  w_dps Scenario.nothing !! dp_id (_mapping Scenario.retried) = None
  /\ update_device_state (Scenario.seconds 99) (w_dps Scenario.nothing)
       Scenario.retried = Scenario.retried.
Proof.
  split; [reflexivity|].
  exact (proj1 (C10_absent_datapoint_noop (Scenario.seconds 99)
                  Scenario.nothing Scenario.retried eq_refl)).
Defined.

(** ** Jam *)

(** The jammed scenario: the flag is up, no command is pending, and the
    target is still "locked". *)
Lemma scenario_jammed_fields :
  _isjammed Scenario.jammed = true
  /\ _commanded Scenario.jammed = false
  /\ _target_state Scenario.jammed = Locked
  /\ reachable Scenario.jammed.
Proof.
  repeat split.
  unfold Scenario.jammed, Scenario.locking, Scenario.unlocked, Scenario.fresh.
  repeat apply reach_call. apply reach_init.
Qed.

(** C1, as stated, fails: in the jammed scenario a report at 15 s that the
    lock is locked, which is the target, leaves the jam flag up. *)
Lemma C1_counterexample :
  ~ AsStated.matching_report_clears_jam (Scenario.seconds 15)
      (w_dps (Scenario.status false)) Scenario.jammed.
Proof.
  intros Hclaim.
  specialize (Hclaim eq_refl eq_refl
                (mkDataPoint DT_BOOL (Py.VBool false)) eq_refl eq_refl).
  vm_compute in Hclaim. discriminate Hclaim.
Qed.

(** C1, amended.  Once a jam stands and no command is pending, a pass
    leaves the jam flag up whatever is reported and whenever; the flag
    goes down on a report that matches the target of a command issued
    after the jam. *)
Theorem C1_jam_stands_until_new_command now (dps : datapoints) self :
  _isjammed self = true ->
  _commanded self = false ->
  _isjammed (update_device_state now dps self) = true
  /\ forall want_locked issued_at w now' (dps' : datapoints) datapoint,
       dps' !! dp_id (_mapping self) = Some datapoint ->
       reported_state datapoint = Some want_locked ->
       _isjammed
         (update_device_state now' dps'
            (fst (_set_lock_state want_locked issued_at self w))) = false.
Proof.
  intros Hj Hc. split.
  - now rewrite (idle_pass_isjammed now dps self Hc).
  - intros want_locked issued_at w now' dps' datapoint Hpresent Hrep.
    rewrite set_lock_state_fst.
    match goal with
    | |- _isjammed (update_device_state _ _ ?s) = _ => set (cmd := s)
    end.
    assert (Hmap : _mapping cmd = _mapping self) by reflexivity.
    rewrite <- Hmap in Hpresent.
    rewrite (present_satisfied now' dps' cmd datapoint Hpresent eq_refl).
    + reflexivity.
    + right. now rewrite Hrep.
Qed.

Lemma C1_jam_stands_until_new_command_witness :
  _isjammed Scenario.jammed = true
  /\ _commanded Scenario.jammed = false
  /\ _isjammed (update_device_state (Scenario.seconds 15)
                  (w_dps (Scenario.status false)) Scenario.jammed) = true
  /\ _isjammed (update_device_state (Scenario.seconds 21)
                  (w_dps (Scenario.status false)) Scenario.retried) = false.
Proof.
  destruct (C1_jam_stands_until_new_command (Scenario.seconds 15)
              (w_dps (Scenario.status false)) Scenario.jammed eq_refl eq_refl)
    as [Hstands Hcleared].
  split; [reflexivity|]. split; [reflexivity|]. split; [exact Hstands|].
  exact (Hcleared true (Scenario.seconds 20) (Scenario.status true)
           (Scenario.seconds 21) (w_dps (Scenario.status false))
           (mkDataPoint DT_BOOL (Py.VBool false)) eq_refl eq_refl).
Defined.

(** C2, as stated, fails: after the jam the lock command is repeated at
    20 s; a report at 21 s that the lock is still unlocked comes before
    the deadline, and the jam flag of the earlier command is still up. *)
Lemma C2_counterexample :
  ~ AsStated.jam_exactly_after_deadline (Scenario.seconds 21)
      (w_dps (Scenario.status true)) Scenario.retried.
Proof.
  intros Hclaim.
  destruct (Hclaim (mkDataPoint DT_BOOL (Py.VBool true)) true
              (Scenario.seconds 20) eq_refl eq_refl eq_refl eq_refl
              ltac:(discriminate)) as [_ Hbefore].
  destruct Hbefore as [Hj _].
  - unfold timed_out, Scenario.seconds, Py.timedelta. lia.
  - vm_compute in Hj. discriminate Hj.
Qed.

(** C2, amended.  With a command pending, a target set, a time of issue
    recorded and a report that differs from the target: the pass raises
    the jam flag and clears the pending flag exactly when its time is
    strictly later than the time of issue plus 12 seconds; otherwise the
    pending flag stays true and the jam flag keeps the value it had. *)
Theorem C2_jam_after_deadline now (dps : datapoints) self datapoint target issued_at :
  _commanded self = true ->
  _target_state self = Some target ->
  _commanded_timer self = Some issued_at ->
  dps !! dp_id (_mapping self) = Some datapoint ->
  reported_state datapoint <> Some target ->
  let self' := update_device_state now dps self in
  ((_isjammed self' = true /\ _commanded self' = false)
     <-> timed_out issued_at now)
  /\ (~ timed_out issued_at now ->
      _isjammed self' = _isjammed self /\ _commanded self' = true).
Proof.
  intros Hc Ht Htimer Hpresent Hne self'. subst self'.
  rewrite (present_waiting now dps self datapoint Hpresent target Hc Ht Hne).
  rewrite Htimer.
  destruct (now >? issued_at + Py.timedelta 12) eqn:Hcmp.
  - apply timed_out_gtb in Hcmp. simpl. split; [tauto|]. intros Hno. contradiction.
  - apply not_timed_out_gtb in Hcmp. simpl. rewrite Hc.
    split; [|auto]. split; [intros [_ Habs]; discriminate Habs | contradiction].
Qed.

Lemma C2_jam_after_deadline_witness :
  let self' := update_device_state (Scenario.seconds 14)
                 (w_dps (Scenario.status true)) Scenario.locking in
  _commanded Scenario.locking = true
  /\ _target_state Scenario.locking = Locked
  /\ _commanded_timer Scenario.locking = Some (Scenario.seconds 1)
  /\ timed_out (Scenario.seconds 1) (Scenario.seconds 14)
  /\ _isjammed self' = true
  /\ _commanded self' = false.
Proof.
  intros self'.
  destruct (C2_jam_after_deadline (Scenario.seconds 14)
              (w_dps (Scenario.status true)) Scenario.locking
              (mkDataPoint DT_BOOL (Py.VBool true)) true (Scenario.seconds 1)
              eq_refl eq_refl eq_refl eq_refl ltac:(discriminate))
    as [[_ Hjam] _].
  assert (Hlate : timed_out (Scenario.seconds 1) (Scenario.seconds 14)).
  { unfold timed_out, Scenario.seconds, Py.timedelta. lia. }
  split; [reflexivity|]. split; [reflexivity|]. split; [reflexivity|].
  split; [exact Hlate|]. exact (Hjam Hlate).
Defined.

(** ** Traces *)

Lemma precedes_nil e1 e2 : ~ precedes e1 e2 [].
Proof. intros (pre & mid & post & Heq). now destruct pre. Qed.

Lemma precedes_cons_inv e1 e2 a tr :
  precedes e1 e2 (a :: tr) ->
  (e1 = a /\ In e2 tr) \/ precedes e1 e2 tr.
Proof.
  intros (pre & mid & post & Heq). destruct pre as [|b pre]; simpl in Heq.
  - injection Heq as -> ->. left. split; [reflexivity|].
    apply in_or_app. right. now left.
  - injection Heq as -> ->. right. now exists pre, mid, post.
Qed.

Lemma issued_app {A} (m : Eff.M A) (w : World) (evs : list event) :
  w_trace (snd (m w)) = w_trace w ++ evs ->
  issued m w = evs.
Proof. intros Heq. unfold issued. rewrite Heq. apply drop_app_length. Qed.

Lemma set_lock_state_issued want_locked now self w :
  issued (_set_lock_state want_locked now self) w
  = let dp := if want_locked then dp_id_lock (_mapping self)
              else dp_id_unlock (_mapping self) in
    [ EvWriteHaState
        (snapshot (_update_attrs (set_target_state (Some want_locked) self)));
      EvGetOrCreate dp DT_BOOL (Py.VBool false);
      EvSetValue dp (Py.VBool true) ].
Proof.
  apply issued_app.
  unfold _set_lock_state, mbind, eff_bind, Eff.bind, async_write_ha_state,
    Eff.emit, Eff.datapoints_get_or_create, get_or_create; simpl.
  destruct want_locked; simpl;
    match goal with |- context [?m !! ?k] => destruct (m !! k) end;
    simpl; now rewrite <- !app_assoc.
Qed.

(** The state a command publishes shows a transition only if a command
    was pending already when it was called. *)
Lemma set_lock_state_published want_locked self :
  let st := snapshot (_update_attrs (set_target_state (Some want_locked) self)) in
  st_is_locking st
  = is_False (_current_state self) && want_locked && _commanded self
  /\ st_is_unlocking st
     = is_True (_current_state self) && negb want_locked && _commanded self.
Proof. destruct want_locked; split; reflexivity. Qed.

(** ** Commands *)

(** C5, evaluated.  The lock is known to be unlocked and no command is
    pending; a lock command is given.  The state is published before the
    write is scheduled, but it is published while [_commanded] is still
    false, so it does not show "locking".  The entity itself is locking
    once the call returns, and nothing publishes that.  So the statement
    of the specification does not hold of this call. *)
Theorem C5_published_state_misses_transition :
  issued (_set_lock_state true (Scenario.seconds 1) Scenario.unlocked)
         (Scenario.status true)
  = [ EvWriteHaState
        {| st_is_locked := Unlocked; st_is_locking := false;
           st_is_unlocking := false; st_is_jammed := false |};
      EvGetOrCreate 46 DT_BOOL (Py.VBool false);
      EvSetValue 46 (Py.VBool true) ]
  /\ _current_state Scenario.unlocked = Unlocked
  /\ _commanded Scenario.unlocked = false
  /\ is_locking Scenario.locking = true
  /\ ~ AsStated.transition_published_before_write true (Scenario.seconds 1)
         Scenario.unlocked (Scenario.status true).
Proof.
  assert (Htrace :
    issued (_set_lock_state true (Scenario.seconds 1) Scenario.unlocked)
           (Scenario.status true)
    = [ EvWriteHaState
          {| st_is_locked := Unlocked; st_is_locking := false;
             st_is_unlocking := false; st_is_jammed := false |};
        EvGetOrCreate 46 DT_BOOL (Py.VBool false);
        EvSetValue 46 (Py.VBool true) ])
    by (rewrite set_lock_state_issued; reflexivity).
  split; [exact Htrace|]. split; [reflexivity|]. split; [reflexivity|].
  split; [reflexivity|].
  intros (st & handle & Hprec & Hlocking & _).
  rewrite Htrace in Hprec.
  specialize (Hlocking eq_refl eq_refl).
  apply precedes_cons_inv in Hprec as [[Hst _] | Hprec].
  - injection Hst as ->. discriminate Hlocking.
  - apply precedes_cons_inv in Hprec as [[Hst _] | Hprec]; [discriminate Hst|].
    apply precedes_cons_inv in Hprec as [[Hst _] | Hprec]; [discriminate Hst|].
    now apply precedes_nil in Hprec.
Qed.

(** ** Construction and keepalive *)

Lemma init_fst mapping w :
  fst (__init__ mapping w)
  = let self := _update_attrs
                  (mkLock mapping None None false None None false
                          false false None false) in
    if keep_connect mapping
    then set_datapoint_nop (Some (dp_id_nop mapping)) self
    else self.
Proof.
  unfold __init__, mbind, eff_bind, Eff.bind, Eff.emit,
    Eff.datapoints_get_or_create, get_or_create; simpl.
  destruct (keep_connect mapping); simpl; [|reflexivity].
  match goal with |- context [?m !! ?k] => destruct (m !! k) end; reflexivity.
Qed.

(** C8.  A freshly constructed entity has an unknown current state, no
    target, no pending command and no jam; its properties read: locked
    unknown, not locking, not unlocking, not jammed. *)
Theorem C8_initial_state mapping w :
  let self := fst (__init__ mapping w) in
  _current_state self = Unknown
  /\ _target_state self = Unset
  /\ _commanded self = false
  /\ _isjammed self = false
  /\ is_locked self = None
  /\ is_locking self = false
  /\ is_unlocking self = false
  /\ is_jammed self = false.
Proof.
  simpl. rewrite init_fst. destruct (keep_connect mapping); repeat split.
Qed.

(** Before the keepalive handle is stored, a turn of the keepalive loop
    writes nothing. *)
Lemma send_nop_request_turn_unset self w :
  _datapoint_nop self = None ->
  issued (send_nop_request_turn self) w = [].
Proof.
  intros Hnone. apply issued_app. unfold send_nop_request_turn.
  rewrite Hnone. simpl. now rewrite app_nil_r.
Qed.

Lemma send_nop_request_turn_set self w handle :
  _datapoint_nop self = Some handle ->
  issued (send_nop_request_turn self) w = [EvSetValue handle (Py.VBool true)].
Proof.
  intros Hsome. apply issued_app. unfold send_nop_request_turn.
  now rewrite Hsome.
Qed.

(** C9, as stated, fails: constructing the Gimdow lock over an empty
    datapoint collection starts the timer first and asks for the
    keepalive datapoint second. *)
Lemma C9_counterexample :
  ~ AsStated.keepalive_datapoint_before_timer gimdow Scenario.nothing.
Proof.
  intros Hclaim. specialize (Hclaim eq_refl).
  change (issued (__init__ gimdow) Scenario.nothing)
    with [EvTimerStart 60; EvGetOrCreate 52 DT_BOOL (Py.VBool false)] in Hclaim.
  apply precedes_cons_inv in Hclaim as [[Hev _] | Hclaim]; [discriminate Hev|].
  apply precedes_cons_inv in Hclaim as [[_ []] | Hclaim].
  now apply precedes_nil in Hclaim.
Qed.

(** C9, amended.  With keepalive required, construction starts the timer
    with the configured interval and next asks the collection for the
    keepalive datapoint, of boolean type and default [false]; these are
    its only effects.  Afterwards the datapoint is in the collection (with
    value [false] if it was not there before) and the entity holds its
    handle.  A turn of the keepalive loop on an entity that holds no
    handle writes nothing and leaves the world as it is. *)
Theorem C9_timer_then_keepalive_datapoint mapping w :
  keep_connect mapping = true ->
  issued (__init__ mapping) w
  = [ EvTimerStart (keep_connect_timer mapping);
      EvGetOrCreate (dp_id_nop mapping) DT_BOOL (Py.VBool false) ]
  /\ _datapoint_nop (fst (__init__ mapping w)) = Some (dp_id_nop mapping)
  /\ is_Some (w_dps (snd (__init__ mapping w)) !! dp_id_nop mapping)
  /\ (w_dps w !! dp_id_nop mapping = None ->
      w_dps (snd (__init__ mapping w)) !! dp_id_nop mapping
      = Some (mkDataPoint DT_BOOL (Py.VBool false)))
  /\ (forall self w',
        _datapoint_nop self = None ->
        issued (send_nop_request_turn self) w' = []
        /\ snd (send_nop_request_turn self w') = w').
Proof.
  intros Hkeep. split; [|split; [|split]].
  - apply issued_app.
    unfold __init__, mbind, eff_bind, Eff.bind, Eff.emit,
      Eff.datapoints_get_or_create, get_or_create. rewrite Hkeep. simpl.
    match goal with |- context [?m !! ?k] => destruct (m !! k) end;
      simpl; now rewrite <- app_assoc.
  - rewrite init_fst, Hkeep. reflexivity.
  - unfold __init__, mbind, eff_bind, Eff.bind, Eff.emit,
      Eff.datapoints_get_or_create, get_or_create. rewrite Hkeep. simpl.
    destruct (w_dps w !! dp_id_nop mapping) as [existing|] eqn:Hlook; simpl.
    + rewrite Hlook. eauto.
    + rewrite lookup_insert_eq. eauto.
  - split.
    + unfold __init__, mbind, eff_bind, Eff.bind, Eff.emit,
        Eff.datapoints_get_or_create, get_or_create. rewrite Hkeep. simpl.
      intros Hlook. rewrite Hlook. simpl. now rewrite lookup_insert_eq.
    + intros self w' Hnone. split.
      * now apply send_nop_request_turn_unset.
      * unfold send_nop_request_turn. now rewrite Hnone.
Qed.

Lemma C9_timer_then_keepalive_datapoint_witness :
  keep_connect gimdow = true
  /\ issued (__init__ gimdow) Scenario.nothing
     = [EvTimerStart 60; EvGetOrCreate 52 DT_BOOL (Py.VBool false)]
  /\ w_dps (snd (__init__ gimdow Scenario.nothing)) !! 52
     = Some (mkDataPoint DT_BOOL (Py.VBool false))
  /\ issued (send_nop_request_turn (mkLock gimdow None None false None None false
                                      false false None false))
            Scenario.nothing = [].
Proof.
  destruct (C9_timer_then_keepalive_datapoint gimdow Scenario.nothing eq_refl)
    as (Htrace & _ & _ & Hcreated & Hturn).
  split; [reflexivity|]. split; [exact Htrace|].
  split; [exact (Hcreated eq_refl)|].
  exact (proj1 (Hturn (mkLock gimdow None None false None None false
                         false false None false)
                  Scenario.nothing eq_refl)).
Defined.

(** ** Invariant *)

Lemma update_device_state_commanded now (dps : datapoints) self :
  _commanded (update_device_state now dps self) = true ->
  _commanded self = true.
Proof.
  destruct (_commanded self) eqn:Hc; [reflexivity|].
  rewrite (idle_pass now dps self Hc). simpl. now rewrite Hc.
Qed.

(** C7.  In every state reached from construction by lock requests and
    status reports, a pending command has its time of issue recorded. *)
Theorem C7_pending_has_time_of_issue self :
  reachable self ->
  _commanded self = true ->
  _commanded_timer self <> None.
Proof.
  induction 1 as [mapping w | self c w Hreach IH].
  - rewrite init_fst. destruct (keep_connect mapping); discriminate.
  - destruct c as [want_locked now | now]; cbn [do_call].
    + rewrite set_lock_state_fst. discriminate.
    + rewrite handle_coordinator_update_fst.
      change (_commanded (_update_attrs ?s)) with (_commanded s).
      change (_commanded_timer (_update_attrs ?s)) with (_commanded_timer s).
      intros Hc.
      apply update_device_state_commanded in Hc.
      destruct (update_device_state_frame now (w_dps w) self) as (_ & -> & _).
      now apply IH.
Qed.

Lemma C7_pending_has_time_of_issue_witness :
  reachable Scenario.retried
  /\ _commanded Scenario.retried = true
  /\ _commanded_timer Scenario.retried <> None.
Proof.
  assert (Hreach : reachable Scenario.retried).
  { unfold Scenario.retried, Scenario.jammed, Scenario.locking,
      Scenario.unlocked, Scenario.fresh.
    repeat apply reach_call. apply reach_init. }
  split; [exact Hreach|]. split; [reflexivity|].
  exact (C7_pending_has_time_of_issue Scenario.retried Hreach eq_refl).
Defined.


(** * Further properties of the code *)

(** ** Traces of composed computations *)

Lemma issued_of_trace {A} (m : Eff.M A) (w : World) (evs : list event) :
  w_trace (snd (m w)) = w_trace w ++ evs ->
  issued m w = evs /\ w_trace (snd (m w)) = w_trace w ++ issued m w.
Proof.
  intros Heq. assert (Hi : issued m w = evs) by now apply issued_app.
  split; [exact Hi | now rewrite Hi].
Qed.

Lemma bind_run {A B} (m : Eff.M A) (k : A -> Eff.M B) (w : World) :
  (m ≫= k) w = k (fst (m w)) (snd (m w)).
Proof. unfold mbind, eff_bind, Eff.bind. now destruct (m w). Qed.

Lemma appends_ret {A} (a : A) : appends (mret a : Eff.M A).
Proof.
  intros w. unfold issued. simpl. now rewrite drop_all, app_nil_r.
Qed.

Lemma appends_emit (e : event) : appends (Eff.emit e).
Proof. intros w. now apply (issued_of_trace (Eff.emit e) w [e]). Qed.

Lemma appends_read_datapoints : appends Eff.read_datapoints.
Proof.
  intros w. unfold issued. simpl. now rewrite drop_all, app_nil_r.
Qed.

Lemma appends_get_or_create id ty default :
  appends (Eff.datapoints_get_or_create id ty default).
Proof.
  intros w.
  apply (issued_of_trace _ w [EvGetOrCreate id ty default]).
  unfold Eff.datapoints_get_or_create, get_or_create.
  now destruct (w_dps w !! id).
Qed.

Lemma appends_bind {A B} (m : Eff.M A) (k : A -> Eff.M B) :
  appends m -> (forall a, appends (k a)) -> appends (m ≫= k).
Proof.
  intros Hm Hk w.
  apply (issued_of_trace _ w
           (issued m w ++ issued (k (fst (m w))) (snd (m w)))).
  rewrite bind_run, Hk, Hm. now rewrite app_assoc.
Qed.

Lemma issued_bind {A B} (m : Eff.M A) (k : A -> Eff.M B) (w : World) :
  appends m -> (forall a, appends (k a)) ->
  issued (m ≫= k) w = issued m w ++ issued (k (fst (m w))) (snd (m w)).
Proof.
  intros Hm Hk. apply issued_app.
  rewrite bind_run, Hk, Hm. now rewrite app_assoc.
Qed.

Lemma appends_init mapping : appends (__init__ mapping).
Proof.
  unfold __init__. destruct (keep_connect mapping).
  - apply appends_bind; [apply appends_emit|]. intros _.
    apply appends_bind; [apply appends_get_or_create|]. intros handle.
    apply appends_ret.
  - apply appends_ret.
Qed.

Lemma appends_set_lock_state want_locked now self :
  appends (_set_lock_state want_locked now self).
Proof.
  unfold _set_lock_state, async_write_ha_state.
  apply appends_bind; [apply appends_emit|]. intros _.
  apply appends_bind; [apply appends_get_or_create|]. intros handle.
  apply appends_bind; [apply appends_emit|]. intros _.
  apply appends_ret.
Qed.

Lemma appends_handle_coordinator_update now self :
  appends (_handle_coordinator_update now self).
Proof.
  unfold _handle_coordinator_update, async_write_ha_state.
  apply appends_bind; [apply appends_read_datapoints|]. intros dps.
  apply appends_bind; [apply appends_emit|]. intros _.
  apply appends_ret.
Qed.

Lemma appends_do_call c self : appends (do_call c self).
Proof.
  destruct c; [apply appends_set_lock_state | apply appends_handle_coordinator_update].
Qed.

Lemma appends_run calls : forall self, appends (run calls self).
Proof.
  induction calls as [|c rest IH]; intros self; simpl.
  - apply appends_ret.
  - apply appends_bind; [apply appends_do_call | exact IH].
Qed.

Lemma appends_send_nop_request_turn self : appends (send_nop_request_turn self).
Proof.
  unfold send_nop_request_turn.
  destruct (_datapoint_nop self); [apply appends_emit | apply appends_ret].
Qed.

Lemma appends_send_nop_request_turns turns self :
  appends (send_nop_request_turns turns self).
Proof.
  induction turns as [|n IH]; simpl.
  - apply appends_ret.
  - apply appends_bind; [apply appends_send_nop_request_turn | intros _; exact IH].
Qed.

Lemma appends_setup_entities has_id mappings :
  forall entities, appends (setup_entities has_id mappings entities).
Proof.
  induction mappings as [|m rest IH]; intros entities; simpl.
  - apply appends_ret.
  - apply appends_bind; [apply appends_read_datapoints|]. intros dps.
    destruct (force_add (su_mapping m) || has_id dps (dp_id (su_mapping m)) (su_dp_type m)).
    + apply appends_bind; [apply appends_init|]. intros entity. apply IH.
    + apply IH.
Qed.

Lemma handle_coordinator_update_issued now self w :
  issued (_handle_coordinator_update now self) w
  = [EvWriteHaState (snapshot (fst (_handle_coordinator_update now self w)))].
Proof. apply issued_app. reflexivity. Qed.

Lemma handle_coordinator_update_dps now self w :
  w_dps (snd (_handle_coordinator_update now self w)) = w_dps w.
Proof. reflexivity. Qed.

Lemma do_call_mapping c self w :
  _mapping (fst (do_call c self w)) = _mapping self.
Proof.
  destruct c as [want_locked now | now]; cbn [do_call].
  - now rewrite set_lock_state_fst.
  - rewrite handle_coordinator_update_fst.
    change (_mapping (_update_attrs ?s)) with (_mapping s).
    now destruct (update_device_state_frame now (w_dps w) self) as (_ & _ & -> & _).
Qed.

(** ** Commands, again *)

(** X1.  A command assigns the target, the pending flag and the time of
    issue, and recomputes the four cached attributes from the new target
    and from the pending flag as it was before the call.  The current
    state, the jam flag, the mapping and the keepalive handle are as they
    were; so a jam that stands is not lifted by giving a new command. *)
Theorem X1_command_frame want_locked now self w :
  let self' := fst (_set_lock_state want_locked now self w) in
  self'
  = {| _mapping := _mapping self;
       _current_state := _current_state self;
       _target_state := Some want_locked;
       _commanded := true;
       _commanded_timer := Some now;
       _datapoint_nop := _datapoint_nop self;
       _isjammed := _isjammed self;
       _attr_is_locking :=
         is_False (_current_state self) && want_locked && _commanded self;
       _attr_is_unlocking :=
         is_True (_current_state self) && negb want_locked && _commanded self;
       _attr_is_locked := _current_state self;
       _attr_is_jammed := _isjammed self |}
  /\ is_locked self' = is_locked self
  /\ is_jammed self' = is_jammed self.
Proof.
  simpl. rewrite set_lock_state_fst.
  destruct want_locked; repeat split.
Qed.

(** X2.  A command given while another is pending replaces it: target,
    pending flag, time of issue, current state and jam flag are those the
    second command alone would have left, and the deadline runs from the
    second command. *)
Theorem X2_command_supersedes first t1 second t2 self w1 w2 w3 :
  let twice := fst (_set_lock_state second t2
                      (fst (_set_lock_state first t1 self w1)) w2) in
  let once := fst (_set_lock_state second t2 self w3) in
  _target_state twice = Some second
  /\ _commanded_timer twice = Some t2
  /\ _target_state twice = _target_state once
  /\ _commanded twice = _commanded once
  /\ _commanded_timer twice = _commanded_timer once
  /\ _current_state twice = _current_state once
  /\ _isjammed twice = _isjammed once
  /\ forall now (dps : datapoints),
       _isjammed (update_device_state now dps twice)
       = _isjammed (update_device_state now dps once)
       /\ _commanded (update_device_state now dps twice)
          = _commanded (update_device_state now dps once).
Proof.
  simpl. rewrite !set_lock_state_fst.
  repeat (split; [reflexivity|]).
  intros now dps. unfold update_device_state, dp_getitem. simpl.
  destruct (dps !! dp_id (_mapping self)) as [datapoint|]; simpl;
    [|split; reflexivity].
  destruct (Py.truthy (dp_value datapoint)), second; simpl;
    try (split; reflexivity);
    destruct (now >? t2 + Py.timedelta 12); split; reflexivity.
Qed.

(** ** Reports, again *)

(** X3.  A pass raises the jam flag only in one situation: a command is
    pending, its target is set, the datapoint reports a different state,
    a time of issue is recorded and the pass comes strictly later than
    12 seconds after it.  The same pass ends the command. *)
Theorem X3_jam_only_after_deadline now (dps : datapoints) self :
  _isjammed self = false ->
  _isjammed (update_device_state now dps self) = true ->
  exists datapoint target issued_at,
    dps !! dp_id (_mapping self) = Some datapoint
    /\ _commanded self = true
    /\ _target_state self = Some target
    /\ reported_state datapoint <> Some target
    /\ _commanded_timer self = Some issued_at
    /\ timed_out issued_at now
    /\ _commanded (update_device_state now dps self) = false.
Proof.
  intros Hclear Hjam.
  destruct (dps !! dp_id (_mapping self)) as [datapoint|] eqn:Hlook.
  2:{ rewrite (update_device_state_absent now dps self Hlook) in Hjam. congruence. }
  destruct (_commanded self) eqn:Hc.
  2:{ rewrite (idle_pass_isjammed now dps self Hc) in Hjam. congruence. }
  destruct (_target_state self) as [target|] eqn:Ht.
  2:{ rewrite (present_satisfied now dps self datapoint Hlook Hc (or_introl Ht)) in Hjam.
      discriminate Hjam. }
  destruct (decide (reported_state datapoint = Some target)) as [Heq | Hne].
  { rewrite (present_satisfied now dps self datapoint Hlook Hc) in Hjam
      by (right; congruence).
    discriminate Hjam. }
  exists datapoint, target.
  rewrite (present_waiting now dps self datapoint Hlook target Hc Ht Hne) in Hjam |- *.
  destruct (_commanded_timer self) as [issued_at|].
  2:{ simpl in Hjam. congruence. }
  exists issued_at.
  destruct (now >? issued_at + Py.timedelta 12) eqn:Hcmp.
  - apply timed_out_gtb in Hcmp. repeat split; auto.
  - simpl in Hjam. congruence.
Qed.

Lemma X3_jam_only_after_deadline_witness :
  _isjammed Scenario.locking = false
  /\ _isjammed (update_device_state (Scenario.seconds 14)
                  (w_dps (Scenario.status true)) Scenario.locking) = true
  /\ exists datapoint target issued_at,
       w_dps (Scenario.status true) !! dp_id (_mapping Scenario.locking)
       = Some datapoint
       /\ _commanded Scenario.locking = true
       /\ _target_state Scenario.locking = Some target
       /\ reported_state datapoint <> Some target
       /\ _commanded_timer Scenario.locking = Some issued_at
       /\ timed_out issued_at (Scenario.seconds 14)
       /\ _commanded (update_device_state (Scenario.seconds 14)
                        (w_dps (Scenario.status true)) Scenario.locking) = false.
Proof.
  split; [reflexivity|]. split; [reflexivity|].
  exact (X3_jam_only_after_deadline (Scenario.seconds 14)
           (w_dps (Scenario.status true)) Scenario.locking eq_refl eq_refl).
Defined.

(** X4.  A pass repeated at the same time over the same datapoints does
    nothing more: delivering a report twice is the same as delivering it
    once. *)
Theorem X4_pass_idempotent now (dps : datapoints) self :
  update_device_state now dps (update_device_state now dps self)
  = update_device_state now dps self.
Proof.
  destruct (dps !! dp_id (_mapping self)) as [datapoint|] eqn:Hlook.
  2:{ now rewrite !(update_device_state_absent now dps self Hlook). }
  unfold update_device_state, dp_getitem. rewrite Hlook.
  destruct self as [m cur tgt cmd tmr nop jam a1 a2 a3 a4]. simpl in *.
  destruct (Py.truthy (dp_value datapoint)) eqn:Hraw.
  all: destruct cmd; simpl.
  all: try (rewrite Hlook, Hraw; reflexivity).
  all: destruct tgt as [[]|]; simpl.
  all: try (rewrite Hlook, Hraw; reflexivity).
  all: destruct tmr as [issued_at|]; simpl.
  all: try destruct (now >? issued_at + Py.timedelta 12) eqn:Hcmp; simpl.
  all: rewrite Hlook, Hraw; simpl; rewrite ?Hcmp; reflexivity.
Qed.

(** ** Invariants of reachable states *)

(** X5.  In every reachable state the target and the time of issue are
    set together or not at all; a pending command has a target, and so
    has a jam.  So a pass never ends a reachable command on the ground
    that no target is set. *)
Theorem X5_target_set_with_time_of_issue self :
  reachable self ->
  (_target_state self = None <-> _commanded_timer self = None)
  /\ (_commanded self = true -> _target_state self <> None)
  /\ (_isjammed self = true -> _target_state self <> None).
Proof.
  induction 1 as [mapping w | self c w Hreach (Hboth & Hpending & Hjam)].
  - rewrite init_fst. destruct (keep_connect mapping); simpl;
      repeat split; congruence.
  - destruct c as [want_locked now | now]; cbn [do_call].
    + rewrite set_lock_state_fst. simpl. repeat split; congruence.
    + rewrite handle_coordinator_update_fst.
      change (_target_state (_update_attrs ?s)) with (_target_state s).
      change (_commanded_timer (_update_attrs ?s)) with (_commanded_timer s).
      change (_commanded (_update_attrs ?s)) with (_commanded s).
      change (_isjammed (_update_attrs ?s)) with (_isjammed s).
      destruct (update_device_state_frame now (w_dps w) self) as (-> & -> & _).
      split; [exact Hboth|]. split.
      * intros Hc. apply Hpending.
        now apply (update_device_state_commanded now (w_dps w)).
      * intros Hj Hnone.
        destruct (_commanded self) eqn:Hc; [now apply Hpending|].
        rewrite (idle_pass_isjammed now (w_dps w) self Hc) in Hj.
        now apply Hjam.
Qed.

Lemma X5_target_set_with_time_of_issue_witness :
  reachable Scenario.jammed
  /\ _isjammed Scenario.jammed = true
  /\ _target_state Scenario.jammed <> None.
Proof.
  assert (Hreach : reachable Scenario.jammed).
  { unfold Scenario.jammed, Scenario.locking, Scenario.unlocked, Scenario.fresh.
    repeat apply reach_call. apply reach_init. }
  split; [exact Hreach|]. split; [reflexivity|].
  exact (proj2 (proj2 (X5_target_set_with_time_of_issue Scenario.jammed Hreach))
           eq_refl).
Defined.

(** X6.  In every reachable state the cached attributes for "locked" and
    "jammed" agree with the properties; after a status report all four
    cached attributes agree with them. *)
Theorem X6_cached_attributes self :
  reachable self ->
  _attr_is_locked self = is_locked self
  /\ _attr_is_jammed self = is_jammed self
  /\ forall now w, attrs_in_sync (fst (_handle_coordinator_update now self w)).
Proof.
  intros Hreach. split; [|split].
  - destruct Hreach as [mapping w | self c w _].
    + rewrite init_fst. now destruct (keep_connect mapping).
    + destruct c; cbn [do_call];
        [now rewrite set_lock_state_fst | now rewrite handle_coordinator_update_fst].
  - destruct Hreach as [mapping w | self c w _].
    + rewrite init_fst. now destruct (keep_connect mapping).
    + destruct c; cbn [do_call];
        [now rewrite set_lock_state_fst | now rewrite handle_coordinator_update_fst].
  - intros now w. rewrite handle_coordinator_update_fst. repeat split.
Qed.

Lemma X6_cached_attributes_witness :
  reachable Scenario.locking
  /\ _attr_is_locked Scenario.locking = is_locked Scenario.locking
  /\ _attr_is_jammed Scenario.locking = is_jammed Scenario.locking.
Proof.
  assert (Hreach : reachable Scenario.locking).
  { unfold Scenario.locking, Scenario.unlocked, Scenario.fresh.
    repeat apply reach_call. apply reach_init. }
  destruct (X6_cached_attributes Scenario.locking Hreach) as (Hl & Hj & _).
  split; [exact Hreach|]. split; [exact Hl | exact Hj].
Defined.

(** X7.  A status report publishes exactly once, and what it publishes is
    the state the entity is left in; it schedules no write and leaves the
    datapoint collection alone. *)
Theorem X7_report_publishes_final_state now self w :
  let self' := fst (_handle_coordinator_update now self w) in
  issued (_handle_coordinator_update now self) w = [EvWriteHaState (snapshot self')]
  /\ snapshot self'
     = mkHaState (_attr_is_locked self') (_attr_is_locking self')
         (_attr_is_unlocking self') (_attr_is_jammed self')
  /\ w_dps (snd (_handle_coordinator_update now self w)) = w_dps w.
Proof.
  simpl. split; [apply handle_coordinator_update_issued|].
  split; reflexivity.
Qed.

(** X8.  The entity never reads as locking and unlocking at once: locking
    needs a pending command on a lock reported unlocked, unlocking a
    pending command on a lock reported locked; with the state unknown or
    no command pending it reads as neither. *)
Theorem X8_transition_flags_exclusive self :
  (is_locking self = true ->
   is_unlocking self = false /\ is_locked self = Unlocked
   /\ _target_state self = Locked /\ _commanded self = true)
  /\ (is_unlocking self = true ->
      is_locking self = false /\ is_locked self = Locked
      /\ _target_state self = Unlocked /\ _commanded self = true)
  /\ (is_locked self = None -> is_locking self = false /\ is_unlocking self = false)
  /\ (_commanded self = false -> is_locking self = false /\ is_unlocking self = false).
Proof.
  unfold is_locking, is_unlocking, is_locked.
  destruct (_current_state self) as [[]|], (_target_state self) as [[]|],
    (_commanded self); simpl; repeat split; congruence.
Qed.

(** ** Runs of calls *)

Lemma run_cons_issued c rest self w :
  issued (run (c :: rest) self) w
  = issued (do_call c self) w
    ++ issued (run rest (fst (do_call c self w))) (snd (do_call c self w)).
Proof.
  simpl. apply issued_bind; [apply appends_do_call | apply appends_run].
Qed.

Lemma do_call_issued c self w :
  issued (do_call c self) w
  = match c with
    | requestLock want_locked now =>
        let dp := if want_locked then dp_id_lock (_mapping self)
                  else dp_id_unlock (_mapping self) in
        [ EvWriteHaState
            (snapshot (_update_attrs (set_target_state (Some want_locked) self)));
          EvGetOrCreate dp DT_BOOL (Py.VBool false);
          EvSetValue dp (Py.VBool true) ]
    | onStatusReport now =>
        [EvWriteHaState (snapshot (fst (_handle_coordinator_update now self w)))]
    end.
Proof.
  destruct c; cbn [do_call];
    [apply set_lock_state_issued | apply handle_coordinator_update_issued].
Qed.

(** X9.  Over any sequence of calls: every call publishes the state once;
    one write is scheduled per lock request and none by a report; every
    write carries [True] and goes to the lock or the unlock datapoint of
    the mapping. *)
Theorem X9_run_effects calls self w :
  let tr := issued (run calls self) w in
  length (List.filter is_publication tr) = length calls
  /\ length (List.filter is_write tr) = length (List.filter is_request calls)
  /\ forall handle v,
       In (EvSetValue handle v) tr ->
       v = Py.VBool true
       /\ (handle = dp_id_lock (_mapping self)
           \/ handle = dp_id_unlock (_mapping self)).
Proof.
  revert self w. induction calls as [|c rest IH]; intros self w.
  - cbn zeta. assert (Hnil : issued (run [] self) w = [])
      by (apply issued_app; simpl; now rewrite app_nil_r).
    rewrite Hnil. simpl. split; [reflexivity|]. split; [reflexivity|].
    intros handle v [].
  - cbn zeta. rewrite run_cons_issued.
    specialize (IH (fst (do_call c self w)) (snd (do_call c self w))).
    cbn zeta in IH. rewrite do_call_mapping in IH.
    destruct IH as (IHp & IHw & IHv).
    rewrite !List.filter_app, !List.length_app, IHp, IHw, do_call_issued.
    destruct c as [want_locked now | now]; simpl.
    + split; [reflexivity|]. split; [reflexivity|].
      intros handle v [Hev | [Hev | [Hev | Hin]]]; try discriminate Hev.
      * injection Hev as <- <-. split; [reflexivity|].
        destruct want_locked; [now left | now right].
      * now apply IHv.
    + split; [reflexivity|]. split; [reflexivity|].
      intros handle v [Hev | Hin]; [discriminate Hev | now apply IHv].
Qed.

(** ** Keepalive, again *)

Lemma init_issued mapping w :
  issued (__init__ mapping) w
  = if keep_connect mapping
    then [ EvTimerStart (keep_connect_timer mapping);
           EvGetOrCreate (dp_id_nop mapping) DT_BOOL (Py.VBool false) ]
    else [].
Proof.
  apply issued_app.
  unfold __init__, mbind, eff_bind, Eff.bind, Eff.emit,
    Eff.datapoints_get_or_create, get_or_create.
  destruct (keep_connect mapping); simpl.
  - match goal with |- context [?m !! ?k] => destruct (m !! k) end;
      simpl; now rewrite <- app_assoc.
  - now rewrite app_nil_r.
Qed.

Lemma init_datapoint_nop mapping w :
  _datapoint_nop (fst (__init__ mapping w))
  = if keep_connect mapping then Some (dp_id_nop mapping) else None.
Proof. rewrite init_fst. now destruct (keep_connect mapping). Qed.

Lemma do_call_datapoint_nop c self w :
  _datapoint_nop (fst (do_call c self w)) = _datapoint_nop self.
Proof.
  destruct c as [want_locked now | now]; cbn [do_call].
  - now rewrite set_lock_state_fst.
  - rewrite handle_coordinator_update_fst.
    change (_datapoint_nop (_update_attrs ?s)) with (_datapoint_nop s).
    now destruct (update_device_state_frame now (w_dps w) self) as (_ & _ & _ & ->).
Qed.

Lemma run_datapoint_nop calls :
  forall self w, _datapoint_nop (fst (run calls self w)) = _datapoint_nop self.
Proof.
  induction calls as [|c rest IH]; intros self w; simpl; [reflexivity|].
  rewrite bind_run, IH. apply do_call_datapoint_nop.
Qed.

Lemma send_nop_request_turns_issued turns self w :
  issued (send_nop_request_turns turns self) w
  = match _datapoint_nop self with
    | Some handle => replicate turns (EvSetValue handle (Py.VBool true))
    | None => []
    end
  /\ w_dps (snd (send_nop_request_turns turns self w)) = w_dps w.
Proof.
  revert w. induction turns as [|n IH]; intros w.
  - split; [|reflexivity]. simpl.
    replace (issued (mret tt) w) with (@nil event)
      by (symmetry; apply issued_app; simpl; now rewrite app_nil_r).
    now destruct (_datapoint_nop self).
  - cbn [send_nop_request_turns]. split.
    + rewrite issued_bind;
        [| apply appends_send_nop_request_turn
         | intros _; apply appends_send_nop_request_turns].
      rewrite (proj1 (IH _)).
      destruct (_datapoint_nop self) as [handle|] eqn:Hnop.
      * now rewrite (send_nop_request_turn_set self w handle Hnop).
      * now rewrite (send_nop_request_turn_unset self w Hnop).
    + rewrite bind_run, (proj2 (IH _)).
      unfold send_nop_request_turn. now destruct (_datapoint_nop self).
Qed.

(** X10.  Take an entity as constructed and drive it through any calls.
    If its mapping asks for keepalive, the first [turns] turns of the
    keepalive loop schedule [turns] writes of [True] to the keepalive
    datapoint and nothing else; if it does not, they schedule nothing.
    Either way the loop leaves the datapoint collection alone. *)
Theorem X10_keepalive_turns mapping w calls w1 turns w2 :
  let entity := fst (run calls (fst (__init__ mapping w)) w1) in
  issued (send_nop_request_turns turns entity) w2
  = (if keep_connect mapping
     then replicate turns (EvSetValue (dp_id_nop mapping) (Py.VBool true))
     else [])
  /\ w_dps (snd (send_nop_request_turns turns entity w2)) = w_dps w2.
Proof.
  cbn zeta.
  destruct (send_nop_request_turns_issued turns
              (fst (run calls (fst (__init__ mapping w)) w1)) w2) as [Hissued Hdps].
  split; [|exact Hdps].
  rewrite Hissued, run_datapoint_nop, init_datapoint_nop.
  now destruct (keep_connect mapping).
Qed.

(** X11.  Without keepalive in the mapping, construction has no effect
    outside the entity: no timer is started, the datapoint collection is
    not asked for anything, and no keepalive handle is kept. *)
Theorem X11_init_without_keepalive mapping w :
  keep_connect mapping = false ->
  issued (__init__ mapping) w = []
  /\ snd (__init__ mapping w) = w
  /\ _datapoint_nop (fst (__init__ mapping w)) = None.
Proof.
  intros Hkeep. split; [|split].
  - now rewrite init_issued, Hkeep.
  - unfold __init__. now rewrite Hkeep.
  - now rewrite init_datapoint_nop, Hkeep.
Qed.

Lemma X11_init_without_keepalive_witness :
  let quiet := mkMapping 47 46 6 52 60 true false in
  keep_connect quiet = false
  /\ issued (__init__ quiet) (Scenario.status true) = []
  /\ snd (__init__ quiet (Scenario.status true)) = Scenario.status true.
Proof.
  intros quiet.
  destruct (X11_init_without_keepalive quiet (Scenario.status true) eq_refl)
    as (Hissued & Hworld & _).
  split; [reflexivity|]. split; [exact Hissued | exact Hworld].
Defined.

(** ** Configuration lookup *)

Lemma table_lookup device :
  get_mapping_by_device mapping_table device
  = if decide (category device = "jtmspro" /\ product_id device = "rlyxv7pe")
    then [mkSetup gimdow None]
    else [].
Proof.
  unfold get_mapping_by_device, mapping_table.
  destruct (decide (category device = "jtmspro")) as [-> | Hcat].
  - rewrite lookup_singleton_eq.
    destruct (decide (product_id device = "rlyxv7pe")) as [-> | Hprod].
    + rewrite lookup_singleton_eq. now rewrite decide_True.
    + rewrite lookup_singleton_ne by congruence.
      rewrite decide_False; [reflexivity | tauto].
  - rewrite lookup_singleton_ne by congruence.
    rewrite decide_False; [reflexivity | tauto].
Qed.

(** X12.  With the table of the source, the lookup yields the Gimdow
    mapping for category [jtmspro] with product [rlyxv7pe], and nothing
    for every other device, be it another product of that category. *)
Theorem X12_table_lookup device :
  get_mapping_by_device mapping_table device
  = if decide (category device = "jtmspro" /\ product_id device = "rlyxv7pe")
    then [mkSetup gimdow None]
    else [].
Proof. apply table_lookup. Qed.

(** X13.  Over any table, the lookup yields mappings only for a category
    that is in the table and has a product table: they are the entry of
    the product if there is one, else the mappings of the category.  In
    particular the mappings of a category without product table are
    never used. *)
Theorem X13_lookup_nonempty table device :
  get_mapping_by_device table device <> [] ->
  exists cat prods,
    table !! category device = Some cat
    /\ products cat = Some prods
    /\ (prods !! product_id device = Some (get_mapping_by_device table device)
        \/ (prods !! product_id device = None
            /\ mapping cat = Some (get_mapping_by_device table device))).
Proof.
  unfold get_mapping_by_device.
  destruct (table !! category device) as [[[prods|] category_mapping]|];
    [|congruence|congruence].
  intros Hne. exists (mkCategory (Some prods) category_mapping), prods.
  split; [reflexivity|]. split; [reflexivity|]. simpl.
  destruct (prods !! product_id device) as [product_mapping|]; [now left|].
  right. split; [reflexivity|].
  destruct category_mapping; [reflexivity | congruence].
Qed.

Lemma X13_lookup_nonempty_witness :
  let device := mkDevice "jtmspro" "rlyxv7pe" in
  get_mapping_by_device mapping_table device <> []
  /\ exists cat prods,
       mapping_table !! category device = Some cat
       /\ products cat = Some prods
       /\ (prods !! product_id device
           = Some (get_mapping_by_device mapping_table device)
           \/ (prods !! product_id device = None
               /\ mapping cat
                  = Some (get_mapping_by_device mapping_table device))).
Proof.
  intros device.
  assert (Hne : get_mapping_by_device mapping_table device <> [])
    by (vm_compute; discriminate).
  split; [exact Hne|].
  exact (X13_lookup_nonempty mapping_table device Hne).
Defined.

(** A category that carries mappings of its own but no product table
    resolves to nothing. *)
Lemma lookup_without_products table device cat :
  table !! category device = Some cat ->
  products cat = None ->
  get_mapping_by_device table device = [].
Proof.
  intros Hcat Hprods. unfold get_mapping_by_device. rewrite Hcat.
  destruct cat as [prods category_mapping]. simpl in Hprods. now subst prods.
Qed.

(** ** Set-up *)

Lemma init_mapping mapping w : _mapping (fst (__init__ mapping w)) = mapping.
Proof. rewrite init_fst. now destruct (keep_connect mapping). Qed.

Lemma init_fresh mapping w :
  let self := fst (__init__ mapping w) in
  _current_state self = None /\ _target_state self = None
  /\ _commanded self = false /\ _isjammed self = false.
Proof. simpl. rewrite init_fst. now destruct (keep_connect mapping). Qed.

Lemma issued_read_bind {B} (k : datapoints -> Eff.M B) w :
  issued (Eff.read_datapoints ≫= k) w = issued (k (w_dps w)) w.
Proof. unfold issued. now rewrite bind_run. Qed.

(** What the loop adds to the entities it starts with. *)
Lemma setup_entities_created has_id mappings :
  forall entities w,
  exists created,
    fst (setup_entities has_id mappings entities w) = entities ++ created
    /\ sublist (map _mapping created) (map su_mapping mappings)
    /\ Forall (fun e => _current_state e = None /\ _target_state e = None
                        /\ _commanded e = false /\ _isjammed e = false) created
    /\ length (List.filter is_timer_start
                 (issued (setup_entities has_id mappings entities) w))
       = length (List.filter keep_connect (map _mapping created))
    /\ (Forall (fun m => force_add (su_mapping m) = true) mappings ->
        map _mapping created = map su_mapping mappings).
Proof.
  induction mappings as [|m rest IH]; intros entities w.
  - exists []. simpl. rewrite app_nil_r.
    replace (issued (mret entities) w) with (@nil event)
      by (symmetry; apply issued_app; simpl; now rewrite app_nil_r).
    repeat split; auto; try constructor.
  - cbn [setup_entities]. rewrite issued_read_bind, bind_run.
    cbn [Eff.read_datapoints fst snd].
    destruct (force_add (su_mapping m)
              || has_id (w_dps w) (dp_id (su_mapping m)) (su_dp_type m)) eqn:Htake.
    + rewrite bind_run.
      rewrite issued_bind;
        [| apply appends_init | intros e; apply appends_setup_entities].
      destruct (IH (entities ++ [fst (__init__ (su_mapping m) w)])
                   (snd (__init__ (su_mapping m) w)))
        as (created & Hfst & Hsub & Hfresh & Htimers & Hforced).
      exists (fst (__init__ (su_mapping m) w) :: created).
      split; [now rewrite Hfst, <- app_assoc|].
      split; [simpl; rewrite init_mapping; now apply sublist_skip|].
      split; [constructor; [apply init_fresh | exact Hfresh]|].
      split.
      * rewrite List.filter_app, List.length_app, Htimers, init_issued.
        simpl. rewrite init_mapping.
        now destruct (keep_connect (su_mapping m)).
      * intros Hall. inversion Hall; subst. simpl.
        rewrite init_mapping. f_equal. now apply Hforced.
    + destruct (IH entities w)
        as (created & Hfst & Hsub & Hfresh & Htimers & Hforced).
      exists created.
      split; [exact Hfst|].
      split; [simpl; now apply sublist_cons|].
      split; [exact Hfresh|].
      split; [exact Htimers|].
      intros Hall. inversion Hall as [|? ? Hm Hrest]; subst.
      rewrite Hm in Htake. discriminate Htake.
Qed.

(** X14.  When every mapping found for the device is forced (which is the
    default), set-up constructs one entity per mapping, in the order of
    the mappings, whatever datapoints the device has. *)
Theorem X14_forced_mappings_all_set_up has_id mappings w :
  Forall (fun m => force_add (su_mapping m) = true) mappings ->
  map _mapping (fst (setup_entities has_id mappings [] w))
  = map su_mapping mappings.
Proof.
  intros Hall.
  destruct (setup_entities_created has_id mappings [] w)
    as (created & Hfst & _ & _ & _ & Hforced).
  rewrite Hfst. simpl. now apply Hforced.
Qed.

Lemma X14_forced_mappings_all_set_up_witness :
  let mappings := [mkSetup gimdow None; mkSetup gimdow (Some DT_BOOL)] in
  Forall (fun m => force_add (su_mapping m) = true) mappings
  /\ map _mapping
       (fst (setup_entities (fun _ _ _ => false) mappings [] Scenario.nothing))
     = [gimdow; gimdow].
Proof.
  intros mappings.
  assert (Hall : Forall (fun m => force_add (su_mapping m) = true) mappings)
    by (repeat constructor).
  split; [exact Hall|].
  exact (X14_forced_mappings_all_set_up (fun _ _ _ => false) mappings
           Scenario.nothing Hall).
Defined.

(** X15.  Set-up constructs entities only for mappings found for the
    device, at most one per mapping and in their order, and every entity
    it hands over is in the initial state: unknown, no target, nothing
    pending, not jammed. *)
Theorem X15_set_up_entities has_id table device w :
  let entities := fst (async_setup_entry has_id table device w) in
  sublist (map (fun e => _mapping e) entities)
          (map su_mapping (get_mapping_by_device table device))
  /\ Forall (fun e => is_locked e = None /\ _target_state e = None
                      /\ _commanded e = false /\ is_jammed e = false)
            entities.
Proof.
  cbn zeta. unfold async_setup_entry.
  destruct (setup_entities_created has_id
              (get_mapping_by_device table device) [] w)
    as (created & Hfst & Hsub & Hfresh & _).
  rewrite Hfst. simpl. split; [exact Hsub | exact Hfresh].
Qed.

(** X16.  Set-up starts exactly one keepalive timer for each entity it
    constructs whose mapping asks for keepalive, and none otherwise. *)
Theorem X16_set_up_timers has_id table device w :
  length (List.filter is_timer_start
            (issued (async_setup_entry has_id table device) w))
  = length (List.filter (fun e => keep_connect (_mapping e))
              (fst (async_setup_entry has_id table device w))).
Proof.
  unfold async_setup_entry.
  destruct (setup_entities_created has_id
              (get_mapping_by_device table device) [] w)
    as (created & Hfst & _ & _ & Htimers & _).
  rewrite Htimers, Hfst. simpl.
  clear. induction created as [|e rest IH]; simpl; [reflexivity|].
  destruct (keep_connect (_mapping e)); simpl; now rewrite IH.
Qed.

(** X17.  With the table of the source, set-up of a [jtmspro] /
    [rlyxv7pe] device yields one entity, the Gimdow lock as constructed
    over the device's datapoints, and starts its 60 second keepalive on
    datapoint 52, whether or not the device has the status datapoint;
    set-up of any other device yields no entity and has no effect. *)
Theorem X17_set_up_from_table has_id device w :
  if decide (category device = "jtmspro" /\ product_id device = "rlyxv7pe")
  then fst (async_setup_entry has_id mapping_table device w)
       = [fst (__init__ gimdow w)]
       /\ issued (async_setup_entry has_id mapping_table device) w
          = [EvTimerStart 60; EvGetOrCreate 52 DT_BOOL (Py.VBool false)]
  else fst (async_setup_entry has_id mapping_table device w) = []
       /\ snd (async_setup_entry has_id mapping_table device w) = w.
Proof.
  unfold async_setup_entry. rewrite table_lookup.
  destruct (decide (category device = "jtmspro" /\ product_id device = "rlyxv7pe")).
  - cbn [setup_entities]. rewrite issued_read_bind, !bind_run.
    cbn [Eff.read_datapoints fst snd su_mapping gimdow force_add orb].
    rewrite !bind_run. split; [reflexivity|].
    rewrite issued_bind; [| apply appends_init | intros e; apply appends_ret].
    rewrite init_issued. simpl.
    match goal with
    | |- context [issued ?m ?w'] =>
        replace (issued m w') with (@nil event)
          by (symmetry; apply issued_app; simpl; now rewrite app_nil_r)
    end.
    reflexivity.
  - split; reflexivity.
Qed.

(** ** Reports on a pending command *)

Lemma reported_state_truthy datapoint (state : bool) :
  reported_state datapoint = Some state ->
  Py.truthy (dp_value datapoint) = negb state.
Proof.
  unfold reported_state. intros Heq. injection Heq as <-.
  now destruct (Py.truthy (dp_value datapoint)).
Qed.

(** X18.  While a command is pending, a report of the state that was
    asked for ends it at whatever time the report comes, before or after
    the deadline, and whether or not the jam of an earlier command still
    stands: what is published reads locked (or unlocked) as asked, not
    locking, not unlocking, not jammed. *)
Theorem X18_matching_report_on_pending_command
    want_locked self now w datapoint :
  _commanded self = true ->
  _target_state self = Some want_locked ->
  w_dps w !! dp_id (_mapping self) = Some datapoint ->
  reported_state datapoint = Some want_locked ->
  issued (_handle_coordinator_update now self) w
  = [EvWriteHaState (mkHaState (Some want_locked) false false false)]
  /\ _commanded (fst (_handle_coordinator_update now self w)) = false
  /\ _isjammed (fst (_handle_coordinator_update now self w)) = false.
Proof.
  intros Hc Ht Hlook Hrep.
  rewrite handle_coordinator_update_issued, handle_coordinator_update_fst.
  rewrite (present_satisfied now (w_dps w) self datapoint Hlook Hc)
    by (right; congruence).
  pose proof (reported_state_truthy datapoint want_locked Hrep) as Hraw.
  unfold snapshot, is_locked, is_locking, is_unlocking, is_jammed, seen,
    reported_state.
  simpl. rewrite Ht, Hraw.
  destruct want_locked; repeat split.
Qed.

Lemma X18_matching_report_on_pending_command_witness :
  _commanded Scenario.retried = true
  /\ _isjammed Scenario.retried = true
  /\ _commanded_timer Scenario.retried = Some (Scenario.seconds 20)
  /\ issued (_handle_coordinator_update (Scenario.seconds 99) Scenario.retried)
            (Scenario.status false)
     = [EvWriteHaState (mkHaState Locked false false false)].
Proof.
  split; [reflexivity|]. split; [reflexivity|]. split; [reflexivity|].
  exact (proj1 (X18_matching_report_on_pending_command true Scenario.retried
                  (Scenario.seconds 99) (Scenario.status false)
                  (mkDataPoint DT_BOOL (Py.VBool false))
                  eq_refl eq_refl eq_refl eq_refl)).
Defined.

(** X19.  While a command is pending, a report of the opposite state
    publishes the transition if it comes no later than 12 seconds after
    the command was issued (locking for a lock command, unlocking for an
    unlock command, the jam flag as it stood, the command still pending),
    and publishes a jam, with no transition and the command ended, if it
    comes later. *)
Theorem X19_mismatched_report_on_pending_command
    want_locked issued_at self now w datapoint :
  _commanded self = true ->
  _target_state self = Some want_locked ->
  _commanded_timer self = Some issued_at ->
  w_dps w !! dp_id (_mapping self) = Some datapoint ->
  reported_state datapoint = Some (negb want_locked) ->
  issued (_handle_coordinator_update now self) w
  = [EvWriteHaState
       (if now >? issued_at + Py.timedelta 12
        then mkHaState (Some (negb want_locked)) false false true
        else mkHaState (Some (negb want_locked)) want_locked
               (negb want_locked) (_isjammed self))]
  /\ _commanded (fst (_handle_coordinator_update now self w))
     = negb (now >? issued_at + Py.timedelta 12).
Proof.
  intros Hc Ht Htimer Hlook Hrep.
  rewrite handle_coordinator_update_issued, handle_coordinator_update_fst.
  rewrite (present_waiting now (w_dps w) self datapoint Hlook want_locked Hc Ht)
    by (rewrite Hrep; destruct want_locked; discriminate).
  rewrite Htimer.
  pose proof (reported_state_truthy datapoint (negb want_locked) Hrep) as Hraw.
  unfold snapshot, is_locked, is_locking, is_unlocking, is_jammed, seen,
    reported_state.
  destruct (now >? issued_at + Py.timedelta 12); simpl; rewrite Ht, Hraw, ?Hc;
    destruct want_locked; split; reflexivity.
Qed.

Lemma X19_mismatched_report_on_pending_command_witness :
  _commanded Scenario.locking = true
  /\ _commanded_timer Scenario.locking = Some (Scenario.seconds 1)
  /\ issued (_handle_coordinator_update (Scenario.seconds 5) Scenario.locking)
            (Scenario.status true)
     = [EvWriteHaState (mkHaState Unlocked true false false)]
  /\ issued (_handle_coordinator_update (Scenario.seconds 14) Scenario.locking)
            (Scenario.status true)
     = [EvWriteHaState (mkHaState Unlocked false false true)].
Proof.
  split; [reflexivity|]. split; [reflexivity|]. split.
  - exact (proj1 (X19_mismatched_report_on_pending_command true
                    (Scenario.seconds 1) Scenario.locking (Scenario.seconds 5)
                    (Scenario.status true)
                    (mkDataPoint DT_BOOL (Py.VBool true))
                    eq_refl eq_refl eq_refl eq_refl eq_refl)).
  - exact (proj1 (X19_mismatched_report_on_pending_command true
                    (Scenario.seconds 1) Scenario.locking (Scenario.seconds 14)
                    (Scenario.status true)
                    (mkDataPoint DT_BOOL (Py.VBool true))
                    eq_refl eq_refl eq_refl eq_refl eq_refl)).
Defined.
